(** * The abstract serial-port binding: [lib/bindings/base.js]

    A shallow embedding of the [BaseBinding] class and the properties of
    its argument checks, state checks and error channels.

    JavaScript values are modelled with their runtime type tag, so that
    [typeof], truthiness and [Buffer.isBuffer] are the language's own.
    Numbers are IEEE 754 binary64 values (the kernel's primitive floats),
    objects live in a heap of property maps, and a method is a computation
    that reads the heap and either throws or returns a promise. *)

From Stdlib Require Import ZArith String Ascii Floats.PrimFloat Uint63.
From Stdlib Require Import Floats.SpecFloat Floats.FloatOps Floats.FloatAxioms.
From stdpp Require Import gmap strings.

Local Open Scope string_scope.

(** ** Values *)

Definition loc := positive.

Inductive value : Type :=
| VUndefined
| VNull
| VBoolean (b : bool)
| VNumber (x : float)
| VBigInt (n : Z)
| VString (s : string)
| VSymbol (id : positive)
| VObject (l : loc)
| VFunction (l : loc).

(** What an object is besides its properties: an ordinary object, an
    [Array] with its elements, or a [Buffer] with its bytes. *)
Inductive class : Type :=
| Ordinary
| ArrayData (items : list value)
| BufferData (bytes : list Byte.byte).

Record object : Type := mkObject {
  obj_class : class;
  obj_props : gmap string value
}.

Abbreviation heap := (gmap loc object).

(** ** Errors, completions and promises *)

Inductive error : Type :=
| TypeError (message : string)
| Error (message : string).

Inductive completion (A : Type) : Type :=
| Normal (a : A)
| Throw (e : error).
Arguments Normal {A} a.
Arguments Throw {A} e.

(** The promises of this file are settled when they are created
    ([Promise.resolve()], [Promise.reject(e)]). *)
Inductive promise : Type :=
| Fulfilled (v : value)
| Rejected (e : error).

Definition Promise_resolve (v : value) : promise := Fulfilled v.
Definition Promise_reject (e : error) : promise := Rejected e.

(** ** The computation monad: heap passing with exceptions *)

Definition M (A : Type) : Type := heap -> completion A * heap.

#[global] Instance M_ret : MRet M := fun A (a : A) h => (Normal a, h).

#[global] Instance M_bind : MBind M := fun A B (k : A -> M B) (m : M A) h =>
  match m h with
  | (Normal a, h') => k a h'
  | (Throw e, h') => (Throw e, h')
  end.

Definition throw {A} (e : error) : M A := fun h => (Throw e, h).

(** ** The operators of the language that the class uses *)

Definition typeof (v : value) : string :=
  match v with
  | VUndefined => "undefined"
  | VNull => "object"
  | VBoolean _ => "boolean"
  | VNumber _ => "number"
  | VBigInt _ => "bigint"
  | VString _ => "string"
  | VSymbol _ => "symbol"
  | VObject _ => "object"
  | VFunction _ => "function"
  end.

(** ToBoolean: what [!v] and [if (v)] test. *)
Definition to_boolean (v : value) : bool :=
  match v with
  | VUndefined => false
  | VNull => false
  | VBoolean b => b
  | VNumber x => negb (PrimFloat.is_zero x || PrimFloat.is_nan x)
  | VBigInt n => negb (n =? 0)%Z
  | VString s => negb (s =? "")
  | VSymbol _ => true
  | VObject _ => true
  | VFunction _ => true
  end.

(** [a !== b] on the strings that [typeof] returns. *)
Definition strict_neq (a b : string) : bool := negb (a =? b).

(** The Number of a length: exact, a Buffer or an Array has fewer than
    2^53 elements. *)
Definition length_number {A} (items : list A) : float :=
  PrimFloat.of_uint63 (Uint63.of_Z (Z.of_nat (length items))).

(** [o.key] on an object. The [length] of an Array is the number of its
    elements. The [length] of a Buffer is an accessor that the Buffer
    inherits, which answers the number of its bytes: a [length] property of
    the Buffer's own, when it has one, comes first. Every other property is
    looked up in the property map and is [undefined] when absent. *)
Definition own_property (o : object) (key : string) : value :=
  match obj_class o, key =? "length" with
  | ArrayData items, true => VNumber (length_number items)
  | BufferData bytes, true =>
      default (VNumber (length_number bytes)) (obj_props o !! key)
  | _, _ => default VUndefined (obj_props o !! key)
  end.

(** The value of [v.key] when reading it does not throw. Prototype chains and
    accessors are not modelled; a primitive has no property of its own. *)
Definition field (h : heap) (v : value) (key : string) : value :=
  match v with
  | VObject l | VFunction l =>
      match h !! l with
      | Some o => own_property o key
      | None => VUndefined
      end
  | _ => VUndefined
  end.

Definition cannot_read (what key : string) : error :=
  TypeError ("Cannot read properties of " ++ what ++ " (reading '" ++ key ++ "')").

(** [v.key]: reading a property of [undefined] or [null] throws. *)
Definition get_property (v : value) (key : string) : M value := fun h =>
  match v with
  | VUndefined => (Throw (cannot_read "undefined" key), h)
  | VNull => (Throw (cannot_read "null" key), h)
  | _ => (Normal (field h v key), h)
  end.

Definition is_buffer (h : heap) (v : value) : bool :=
  match v with
  | VObject l =>
      match h !! l with
      | Some (mkObject (BufferData _) _) => true
      | _ => false
      end
  | _ => false
  end.

Definition is_array (h : heap) (v : value) : bool :=
  match v with
  | VObject l =>
      match h !! l with
      | Some (mkObject (ArrayData _) _) => true
      | _ => false
      end
  | _ => false
  end.

(** [Buffer.isBuffer(v)] *)
Definition Buffer_isBuffer (v : value) : M bool := fun h =>
  (Normal (is_buffer h v), h).

(** [a + b]. The class adds two Numbers only (a [typeof] guard on each
    operand precedes the sum); the other cases of the operator are not
    modelled. *)
Definition js_add (a b : value) : value :=
  match a, b with
  | VNumber x, VNumber y => VNumber (PrimFloat.add x y)
  | _, _ => VUndefined
  end.

(** ToNumber, where the conversion neither parses, nor throws, nor runs
    code of the caller: on a Number, [undefined], [null] and a Boolean. *)
Definition to_number (v : value) : option float :=
  match v with
  | VNumber x => Some x
  | VUndefined => Some PrimFloat.nan
  | VNull => Some 0%float
  | VBoolean b => Some (if b then 1%float else 0%float)
  | _ => None
  end.

(** [a < b] with a Number on the right, as in [buffer.length < offset +
    length]. The left operand is a Number unless the Buffer has a [length]
    of its own that is not one; it is then converted by [to_number]. A
    String, a BigInt, a Symbol or an object on the left (a conversion that
    parses, throws or calls [valueOf]) is outside the model, and the
    comparison is taken to be false. *)
Definition js_lt (a b : value) : bool :=
  match to_number a, b with
  | Some x, VNumber y => PrimFloat.ltb x y
  | _, _ => false
  end.

(** A fresh object for [new]. *)
Definition alloc (o : object) : M value := fun h =>
  let l := fresh (dom h) in (Normal (VObject l), <[l := o]> h).

(** The double quote of the messages. *)
Definition dq : string := String (ascii_of_nat 34) EmptyString.

Definition quoted (name : string) : string := dq ++ name ++ dq.

(** ** The class *)

Module BaseBinding.

Definition constructor (this opt : value) : M unit :=
  if strict_neq (typeof opt) "object" then
    throw (TypeError (quoted "options" ++ " is not an object"))
  else
  disconnect ← get_property opt "disconnect";
  if strict_neq (typeof disconnect) "function" then
    throw (TypeError (quoted "options.disconnect" ++ " is not a function"))
  else mret tt.

Definition open (this path options : value) : M promise :=
  if negb (to_boolean path) then
    throw (TypeError (quoted "path" ++ " is not a valid port"))
  else
  if strict_neq (typeof options) "object" then
    throw (TypeError (quoted "options" ++ " is not an object"))
  else
  isOpen ← get_property this "isOpen";
  if to_boolean isOpen then
    mret (Promise_reject (Error "Already open"))
  else mret (Promise_resolve VUndefined).

Definition close (this : value) : M promise :=
  isOpen ← get_property this "isOpen";
  if negb (to_boolean isOpen) then
    mret (Promise_reject (Error "Port is not open"))
  else mret (Promise_resolve VUndefined).

Definition read (this buffer offset length : value) : M promise :=
  is_buffer ← Buffer_isBuffer buffer;
  if negb is_buffer then
    throw (TypeError (quoted "buffer" ++ " is not a Buffer"))
  else
  if strict_neq (typeof offset) "number" then
    throw (TypeError (quoted "offset" ++ " is not an integer"))
  else
  if strict_neq (typeof length) "number" then
    throw (TypeError (quoted "length" ++ " is not an integer"))
  else
  buffer_length ← get_property buffer "length";
  if js_lt buffer_length (js_add offset length) then
    mret (Promise_reject (Error "buffer is too small"))
  else
  isOpen ← get_property this "isOpen";
  if negb (to_boolean isOpen) then
    mret (Promise_reject (Error "Port is not open"))
  else mret (Promise_resolve VUndefined).

Definition write (this buffer : value) : M promise :=
  is_buffer ← Buffer_isBuffer buffer;
  if negb is_buffer then
    throw (TypeError (quoted "buffer" ++ " is not a Buffer"))
  else
  isOpen ← get_property this "isOpen";
  if negb (to_boolean isOpen) then
    mret (Promise_reject (Error "Port is not open"))
  else mret (Promise_resolve VUndefined).

Definition update (this options : value) : M promise :=
  if strict_neq (typeof options) "object" then
    throw (TypeError (quoted "options" ++ " is not an object"))
  else
  baudRate ← get_property options "baudRate";
  if strict_neq (typeof baudRate) "number" then
    throw (TypeError (quoted "options.baudRate" ++ " is not a number"))
  else
  isOpen ← get_property this "isOpen";
  if negb (to_boolean isOpen) then
    mret (Promise_reject (Error "Port is not open"))
  else mret (Promise_resolve VUndefined).

Definition set (this options : value) : M promise :=
  if strict_neq (typeof options) "object" then
    throw (TypeError (quoted "options" ++ " is not an object"))
  else
  isOpen ← get_property this "isOpen";
  if negb (to_boolean isOpen) then
    mret (Promise_reject (Error "Port is not open"))
  else mret (Promise_resolve VUndefined).

Definition get (this : value) : M promise :=
  isOpen ← get_property this "isOpen";
  if negb (to_boolean isOpen) then
    mret (Promise_reject (Error "Port is not open"))
  else mret (Promise_resolve VUndefined).

Definition flush (this : value) : M promise :=
  isOpen ← get_property this "isOpen";
  if negb (to_boolean isOpen) then
    mret (Promise_reject (Error "Port is not open"))
  else mret (Promise_resolve VUndefined).

Definition drain (this : value) : M promise :=
  isOpen ← get_property this "isOpen";
  if negb (to_boolean isOpen) then
    mret (Promise_reject (Error "Port is not open"))
  else mret (Promise_resolve VUndefined).

(** [new BaseBinding(opt)]: the instance is created with no property of
    its own, then the constructor body runs on it. *)
Definition new (opt : value) : M value :=
  this ← alloc (mkObject Ordinary ∅);
  constructor this opt;;
  mret this.

(** The static [list()]. *)
Definition list : M promise :=
  mret (Promise_resolve VUndefined).

End BaseBinding.

(** ** Calls

    One constructor per instance method, so that a property can range over
    every operation of a binding. *)

Inductive call : Type :=
| CallOpen (path options : value)
| CallClose
| CallRead (buffer offset length : value)
| CallWrite (buffer : value)
| CallUpdate (options : value)
| CallSet (options : value)
| CallGet
| CallFlush
| CallDrain.

Definition invoke (this : value) (c : call) : M promise :=
  match c with
  | CallOpen path options => BaseBinding.open this path options
  | CallClose => BaseBinding.close this
  | CallRead buffer offset length => BaseBinding.read this buffer offset length
  | CallWrite buffer => BaseBinding.write this buffer
  | CallUpdate options => BaseBinding.update this options
  | CallSet options => BaseBinding.set this options
  | CallGet => BaseBinding.get this
  | CallFlush => BaseBinding.flush this
  | CallDrain => BaseBinding.drain this
  end.


(** ** Vocabulary of the properties *)

(** [this.isOpen] of the binding at [this]. *)
Definition isOpen (h : heap) (this : loc) : value :=
  field h (VObject this) "isOpen".

Definition NotOpen : error := Error "Port is not open".
Definition AlreadyOpen : error := Error "Already open".
Definition BufferTooSmall : error := Error "buffer is too small".

Definition is_number (v : value) : bool := typeof v =? "number".
Definition is_object (v : value) : bool := typeof v =? "object".
Definition is_function (v : value) : bool := typeof v =? "function".

(** The argument checks of the methods, as the code makes them (with
    [typeof], truthiness and [Buffer.isBuffer]): true when one of them
    fires. [null] is of type object: it passes the check of the options,
    and [update] then fails to read its baud rate. *)
Definition shape_violation (h : heap) (c : call) : bool :=
  match c with
  | CallOpen path options =>
      negb (to_boolean path) || negb (is_object options)
  | CallRead buffer offset length =>
      negb (is_buffer h buffer) || negb (is_number offset)
      || negb (is_number length)
  | CallWrite buffer => negb (is_buffer h buffer)
  | CallUpdate options =>
      negb (is_object options)
      || negb (is_number (field h options "baudRate"))
  | CallSet options => negb (is_object options)
  | CallClose | CallGet | CallFlush | CallDrain => false
  end.

(** [read] is asked for more than the buffer holds. *)
Definition over_capacity (h : heap) (c : call) : bool :=
  match c with
  | CallRead buffer offset length =>
      js_lt (field h buffer "length") (js_add offset length)
  | _ => false
  end.

(** The state checks of the methods, as the code makes them: the failure
    that a call whose arguments passed the checks reports, if any. *)
Definition state_failure (h : heap) (this : loc) (c : call) : option error :=
  match c with
  | CallOpen _ _ =>
      if to_boolean (isOpen h this) then Some AlreadyOpen else None
  | _ =>
      if over_capacity h c then Some BufferTooSmall
      else if to_boolean (isOpen h this) then None
      else Some NotOpen
  end.

Definition settled (failure : option error) : promise :=
  match failure with
  | Some e => Rejected e
  | None => Fulfilled VUndefined
  end.

(** *** The violations and failures, in the words of the properties

    The definitions below do not go through [typeof] or [to_boolean]: they
    say on the values themselves what the properties call a violation. *)







(** A configuration that the constructor accepts. *)
Definition accepted (h : heap) (opt : value) : bool :=
  is_object opt && is_function (field h opt "disconnect").

(** ** The lifecycle scenario, as a program *)

(** Construct, open, open again, close, close again; after each call the
    promise it returned and [isOpen] are recorded. *)
Definition lifecycle (opt options : value) : M (list (promise * value)) :=
  this ← BaseBinding.new opt;
  p1 ← BaseBinding.open this (VString "COM_TEST") options;
  s1 ← get_property this "isOpen";
  p2 ← BaseBinding.open this (VString "COM_TEST") options;
  s2 ← get_property this "isOpen";
  p3 ← BaseBinding.close this;
  s3 ← get_property this "isOpen";
  p4 ← BaseBinding.close this;
  s4 ← get_property this "isOpen";
  mret [(p1, s1); (p2, s2); (p3, s3); (p4, s4)].

(** What the base class does on the scenario: it never assigns [isOpen]. *)
Definition base_lifecycle : list (promise * value) :=
  [(Fulfilled VUndefined, VUndefined); (Fulfilled VUndefined, VUndefined);
   (Rejected NotOpen, VUndefined); (Rejected NotOpen, VUndefined)].

(** ** Example heaps *)

Definition binding_with (state : value) : object :=
  mkObject Ordinary (<["isOpen" := state]> ∅).

Definition four_bytes : list Byte.byte :=
  [Byte.x00; Byte.x00; Byte.x00; Byte.x00].

(** A binding at 1 whose driver keeps [isOpen], a Buffer of four bytes at 2
    and the options [{baudRate: 9600}] at 3. *)
Definition heap_with (state : value) : heap :=
  <[3%positive := mkObject Ordinary (<["baudRate" := VNumber 9600%float]> ∅)]>
    (<[2%positive := mkObject (BufferData four_bytes) ∅]>
       (<[1%positive := binding_with state]> ∅)).

Definition closed_heap : heap := heap_with (VBoolean false).

(** The same with a [length] of its own, 100, on the Buffer of four bytes. *)
Definition long_heap (state : value) : heap :=
  <[2%positive := mkObject (BufferData four_bytes)
                    (<["length" := VNumber 100%float]> ∅)]> (heap_with state).

Definition opened_heap : heap := heap_with (VBoolean true).

(** The function [disconnect] at 1, the configuration [{disconnect}] at 2 and
    the options [{baudRate: 9600}] at 3: what a caller holds before [new]. *)
Definition caller_heap : heap :=
  <[3%positive := mkObject Ordinary (<["baudRate" := VNumber 9600%float]> ∅)]>
    (<[2%positive := mkObject Ordinary (<["disconnect" := VFunction 1%positive]> ∅)]>
       (<[1%positive := mkObject Ordinary ∅]> ∅)).

(** ** Programs over a binding *)


(** A computation that leaves the heap as it found it, however it ends. *)
Definition read_only {A} (m : M A) : Prop :=
  forall h, snd (m h) = h.

(** What [close()] answers on a binding at [this]. *)
Definition by_isOpen (h : heap) (this : loc) : promise :=
  if to_boolean (isOpen h this) then Fulfilled VUndefined else Rejected NotOpen.

(** ** How a call ends *)

Ltac run_method :=
  unfold invoke, BaseBinding.open, BaseBinding.close, BaseBinding.read,
    BaseBinding.write, BaseBinding.update, BaseBinding.set, BaseBinding.get,
    BaseBinding.flush, BaseBinding.drain, mbind, M_bind, mret, M_ret, throw,
    Buffer_isBuffer, get_property, Promise_resolve, Promise_reject,
    strict_neq.

#[local] Arguments field : simpl never.

Ltac by_state :=
  simpl; destruct (to_boolean (field _ _ "isOpen")); reflexivity.

Lemma is_number_inv v : is_number v = true -> exists x, v = VNumber x.
Proof. destruct v; try discriminate. eauto. Qed.

Lemma is_object_inv v : is_object v = true -> v = VNull \/ exists l, v = VObject l.
Proof. destruct v; try discriminate; eauto. Qed.

Lemma is_buffer_inv h v :
  is_buffer h v = true ->
  exists l bytes props,
    v = VObject l /\ h !! l = Some (mkObject (BufferData bytes) props).
Proof.
  destruct v; try discriminate. simpl.
  destruct (h !! l) as [[[| |bytes] props]|] eqn:E; try discriminate.
  eauto.
Qed.

(** [buffer.length] is the Buffer's own [length] when it has one, and the
    number of its bytes otherwise. *)
Lemma buffer_length h l bytes props :
  h !! l = Some (mkObject (BufferData bytes) props) ->
  field h (VObject l) "length"
    = default (VNumber (length_number bytes)) (props !! "length").
Proof. intros E. unfold field. rewrite E. reflexivity. Qed.

(** Well-shaped arguments: the call returns a promise, settled by the state
    checks alone, and the heap is as it was. *)
Lemma invoke_well_shaped h this c :
  shape_violation h c = false ->
  invoke (VObject this) c h = (Normal (settled (state_failure h this c)), h).
Proof.
  destruct c; simpl shape_violation; intros V;
    repeat (apply orb_false_elim in V; destruct V as [V ?]);
    repeat match goal with
           | H : negb _ = false |- _ => apply negb_false_iff in H
           end;
    unfold state_failure, over_capacity, isOpen, is_object, is_number in *;
    run_method.
  - rewrite V, H. by_state.
  - by_state.
  - rewrite V, H0, H. simpl.
    destruct (is_buffer_inv _ _ V) as (l & bytes & props & -> & E).
    destruct (js_lt _ _); [reflexivity|]. by_state.
  - rewrite V. by_state.
  - rewrite V. simpl.
    destruct (is_object_inv _ V) as [->|[l ->]]; [discriminate|].
    rewrite H. by_state.
  - rewrite V. by_state.
  - by_state.
  - by_state.
  - by_state.
Qed.

(** Ill-shaped arguments: the call throws a [TypeError] before any state
    check, and the heap is as it was. *)
Lemma invoke_ill_shaped h this c :
  shape_violation h c = true ->
  exists m, invoke this c h = (Throw (TypeError m), h).
Proof.
  destruct c; simpl shape_violation; intros V; try discriminate;
    unfold is_object, is_number in *; run_method.
  - destruct (to_boolean path); simpl in *; [|eauto].
    rewrite (negb_true_iff _) in V. rewrite V. simpl. eauto.
  - destruct (is_buffer h buffer); simpl in *; [|eauto].
    destruct (typeof offset =? "number"); simpl in *; [|eauto].
    rewrite (negb_true_iff _) in V. rewrite V. simpl. eauto.
  - rewrite V. eauto.
  - destruct (typeof options =? "object") eqn:O; simpl in *; [|eauto].
    destruct (is_object_inv _ O) as [->|[l ->]]; [unfold cannot_read; eauto|].
    rewrite (negb_true_iff _) in V. simpl in V. rewrite V. simpl. eauto.
  - rewrite V. eauto.
Qed.

(** ** Construction *)

Lemma fresh_unused (h : heap) : h !! fresh (dom h) = None.
Proof. apply not_elem_of_dom, is_fresh. Qed.

(** Creating the instance changes no property that the caller can read. *)
Lemma field_alloc (h : heap) v key :
  field (<[fresh (dom h) := mkObject Ordinary ∅]> h) v key = field h v key.
Proof.
  assert (forall l,
    match <[fresh (dom h) := mkObject Ordinary ∅]> h !! l with
    | Some o => own_property o key
    | None => VUndefined
    end = match h !! l with
          | Some o => own_property o key
          | None => VUndefined
          end) as E.
  { intros l. destruct (decide (fresh (dom h) = l)) as [<-|N].
    - rewrite lookup_insert_eq, fresh_unused. unfold own_property. simpl.
      rewrite lookup_empty. reflexivity.
    - rewrite lookup_insert_ne by exact N. reflexivity. }
  unfold field. destruct v; try reflexivity; apply E.
Qed.

Lemma isOpen_alloc (h : heap) :
  isOpen (<[fresh (dom h) := mkObject Ordinary ∅]> h) (fresh (dom h))
    = VUndefined.
Proof.
  unfold isOpen, field. rewrite lookup_insert_eq. unfold own_property. simpl.
  rewrite lookup_empty. reflexivity.
Qed.

Lemma new_accepted (h : heap) opt :
  accepted h opt = true ->
  BaseBinding.new opt h
    = (Normal (VObject (fresh (dom h))),
       <[fresh (dom h) := mkObject Ordinary ∅]> h).
Proof.
  unfold accepted, is_object, is_function. intros A.
  apply andb_true_iff in A as [O F].
  unfold BaseBinding.new, BaseBinding.constructor, alloc, strict_neq.
  unfold mbind, M_bind, mret, M_ret, throw, get_property. simpl.
  rewrite O. simpl.
  destruct (is_object_inv _ O) as [->|[l ->]]; [discriminate|].
  rewrite field_alloc, F. reflexivity.
Qed.

Lemma new_refused (h : heap) opt :
  accepted h opt = false ->
  exists m,
    BaseBinding.new opt h
      = (Throw (TypeError m), <[fresh (dom h) := mkObject Ordinary ∅]> h).
Proof.
  unfold accepted, is_object, is_function. intros A.
  unfold BaseBinding.new, BaseBinding.constructor, alloc, strict_neq.
  unfold mbind, M_bind, mret, M_ret, throw, get_property. simpl.
  destruct (typeof opt =? "object") eqn:O; simpl in *; [|eauto].
  destruct (is_object_inv _ O) as [->|[l ->]]; [unfold cannot_read; eauto|].
  rewrite field_alloc, A. simpl. eauto.
Qed.

(** C6. For every constructor argument, [new BaseBinding(opt)] throws a
    [TypeError] (synchronously: the call completes by the throw) whenever
    [opt] is not of type object or its [disconnect] is not a function; this
    covers [null], whose [disconnect] cannot be read, and every object whose
    other fields are well formed but whose [disconnect] is not invocable. *)
Theorem constructor_rejects_invalid_configuration (h : heap) (opt : value) :
  is_object opt = false \/ is_function (field h opt "disconnect") = false ->
  exists m h', BaseBinding.new opt h = (Throw (TypeError m), h').
Proof.
  intros V.
  destruct (new_refused h opt) as [m E]; [|eauto].
  unfold accepted. destruct V as [-> | ->]; [reflexivity|].
  apply andb_false_r.
Qed.

Lemma constructor_rejects_invalid_configuration_witness :
  exists m h',
    BaseBinding.new (VObject 3%positive) caller_heap = (Throw (TypeError m), h').
Proof.
  apply (constructor_rejects_invalid_configuration caller_heap (VObject 3%positive)).
  right. reflexivity.
Defined.

(** C2 (as the code has it). For every configuration that the constructor
    accepts, construction returns a new binding whose [isOpen] is
    [undefined]: the constructor defines no property. [undefined] is falsy,
    so every operation treats the new binding as not open. *)
Theorem fresh_binding_isOpen_undefined (h : heap) (opt : value) :
  accepted h opt = true ->
  exists this h',
    BaseBinding.new opt h = (Normal (VObject this), h')
    /\ isOpen h' this = VUndefined
    /\ to_boolean (isOpen h' this) = false.
Proof.
  intros A. eexists _, _. split; [apply new_accepted, A|].
  rewrite isOpen_alloc. split; reflexivity.
Qed.

Lemma fresh_binding_isOpen_undefined_witness :
  exists this h',
    BaseBinding.new (VObject 2%positive) caller_heap = (Normal (VObject this), h')
    /\ isOpen h' this = VUndefined
    /\ to_boolean (isOpen h' this) = false.
Proof.
  apply (fresh_binding_isOpen_undefined caller_heap (VObject 2%positive)).
  reflexivity.
Defined.

(** C2 as stated fails: the configuration [{disconnect}] is accepted, and the
    binding that construction returns has no [isOpen] equal to [false]. *)
Lemma fresh_binding_isOpen_not_false :
  accepted caller_heap (VObject 2%positive) = true
  /\ ~ (exists this h',
          BaseBinding.new (VObject 2%positive) caller_heap
            = (Normal (VObject this), h')
          /\ isOpen h' this = VBoolean false).
Proof.
  split; [reflexivity|].
  intros (this & h' & E & S).
  rewrite new_accepted in E by reflexivity.
  injection E as <- <-. rewrite isOpen_alloc in S. discriminate.
Qed.

(** ** The lifecycle scenario *)

Lemma bind_normal {A B} (m : M A) (k : A -> M B) h a h' :
  m h = (Normal a, h') -> (m ≫= k) h = k a h'.
Proof. intros E. unfold mbind, M_bind. rewrite E. reflexivity. Qed.

Lemma get_isOpen (h : heap) this :
  get_property (VObject this) "isOpen" h = (Normal (isOpen h this), h).
Proof. reflexivity. Qed.

Lemma lifecycle_accepted (h : heap) opt options :
  accepted h opt = true ->
  is_object options = true ->
  lifecycle opt options h
    = (Normal base_lifecycle, <[fresh (dom h) := mkObject Ordinary ∅]> h).
Proof.
  intros A O. unfold lifecycle.
  rewrite (bind_normal _ _ _ _ _ (new_accepted h opt A)).
  set (this := fresh (dom h)). set (h1 := <[this := _]> h).
  assert (S : isOpen h1 this = VUndefined) by apply isOpen_alloc.
  change (BaseBinding.open (VObject this) (VString "COM_TEST") options)
    with (invoke (VObject this) (CallOpen (VString "COM_TEST") options)).
  change (BaseBinding.close (VObject this))
    with (invoke (VObject this) CallClose).
  assert (invoke (VObject this) (CallOpen (VString "COM_TEST") options) h1
          = (Normal (Fulfilled VUndefined), h1)) as E1.
  { rewrite invoke_well_shaped by (simpl; rewrite O; reflexivity).
    unfold state_failure. rewrite S. reflexivity. }
  assert (invoke (VObject this) CallClose h1
          = (Normal (Rejected NotOpen), h1)) as E2.
  { rewrite invoke_well_shaped by reflexivity.
    unfold state_failure. rewrite S. reflexivity. }
  assert (get_property (VObject this) "isOpen" h1 = (Normal VUndefined, h1))
    as E3 by (rewrite get_isOpen, S; reflexivity).
  rewrite (bind_normal _ _ _ _ _ E1), (bind_normal _ _ _ _ _ E3).
  rewrite (bind_normal _ _ _ _ _ E1), (bind_normal _ _ _ _ _ E3).
  rewrite (bind_normal _ _ _ _ _ E2), (bind_normal _ _ _ _ _ E3).
  rewrite (bind_normal _ _ _ _ _ E2), (bind_normal _ _ _ _ _ E3).
  reflexivity.
Qed.

Lemma open_by_state (h : heap) this path options :
  to_boolean path = true ->
  is_object options = true ->
  BaseBinding.open (VObject this) path options h
    = (Normal (if to_boolean (isOpen h this) then Rejected AlreadyOpen
               else Fulfilled VUndefined), h).
Proof.
  intros P O.
  change (BaseBinding.open (VObject this) path options)
    with (invoke (VObject this) (CallOpen path options)).
  rewrite invoke_well_shaped by (simpl; now rewrite P, O).
  unfold state_failure. destruct (to_boolean (isOpen h this)); reflexivity.
Qed.

Lemma close_by_state (h : heap) this :
  BaseBinding.close (VObject this) h
    = (Normal (if to_boolean (isOpen h this) then Fulfilled VUndefined
               else Rejected NotOpen), h).
Proof.
  change (BaseBinding.close (VObject this))
    with (invoke (VObject this) CallClose).
  rewrite invoke_well_shaped by reflexivity.
  unfold state_failure, over_capacity.
  destruct (to_boolean (isOpen h this)); reflexivity.
Qed.

(** C3 (as the code has it). From a binding freshly constructed with a valid
    [disconnect], [open("COM_TEST", options)] with options of type object
    resolves and leaves [isOpen] undefined, since the base class never
    assigns it; a second [open] resolves as well; [close()] rejects with
    'Port is not open', and so does a second [close()]. The state checks of
    the scenario hold on every binding: when [isOpen] is true, [open]
    rejects with 'Already open' and [close] resolves; when [isOpen] is
    false, [open] resolves and [close] rejects with 'Port is not open'. *)
Theorem lifecycle_of_base_binding (h : heap) (opt options : value) :
  accepted h opt = true ->
  is_object options = true ->
  (exists h', lifecycle opt options h = (Normal base_lifecycle, h'))
  /\ (forall g this,
        isOpen g this = VBoolean true ->
        BaseBinding.open (VObject this) (VString "COM_TEST") options g
          = (Normal (Rejected AlreadyOpen), g)
        /\ BaseBinding.close (VObject this) g
          = (Normal (Fulfilled VUndefined), g))
  /\ (forall g this,
        isOpen g this = VBoolean false ->
        BaseBinding.open (VObject this) (VString "COM_TEST") options g
          = (Normal (Fulfilled VUndefined), g)
        /\ BaseBinding.close (VObject this) g
          = (Normal (Rejected NotOpen), g)).
Proof.
  intros A O. split; [|split].
  - eexists. apply lifecycle_accepted; assumption.
  - intros g this S.
    rewrite open_by_state, close_by_state, S by (reflexivity || exact O).
    split; reflexivity.
  - intros g this S.
    rewrite open_by_state, close_by_state, S by (reflexivity || exact O).
    split; reflexivity.
Qed.

Lemma lifecycle_of_base_binding_witness :
  (exists h',
     lifecycle (VObject 2%positive) (VObject 3%positive) caller_heap
       = (Normal base_lifecycle, h'))
  /\ BaseBinding.open (VObject 1%positive) (VString "COM_TEST")
       (VObject 3%positive) opened_heap
     = (Normal (Rejected AlreadyOpen), opened_heap)
  /\ BaseBinding.close (VObject 1%positive) closed_heap
     = (Normal (Rejected NotOpen), closed_heap).
Proof.
  destruct (lifecycle_of_base_binding caller_heap (VObject 2%positive)
              (VObject 3%positive) eq_refl eq_refl) as (L & T & F).
  split; [exact L|]. split.
  - apply (T opened_heap 1%positive). reflexivity.
  - apply (F closed_heap 1%positive). reflexivity.
Defined.

(** C3 as stated fails: on the scenario, no run of the base class has
    [isOpen] true after the first [open], an 'Already open' rejection of the
    second, a resolved first [close] and [isOpen] false after it. *)
Lemma lifecycle_as_stated_fails :
  accepted caller_heap (VObject 2%positive) = true
  /\ ~ (exists v1 s2 v3 s4 h',
          lifecycle (VObject 2%positive) (VObject 3%positive) caller_heap
            = (Normal [(Fulfilled v1, VBoolean true);
                       (Rejected AlreadyOpen, s2);
                       (Fulfilled v3, VBoolean false);
                       (Rejected NotOpen, s4)], h')).
Proof.
  split; [reflexivity|].
  intros (v1 & s2 & v3 & s4 & h' & E).
  rewrite lifecycle_accepted in E by reflexivity.
  discriminate E.
Qed.

(** ** State checks *)

(** C4. On a binding whose [isOpen] is true, [open] with a non-empty path
    string and options of type object returns (it does not throw) a promise
    rejected with the error 'Already open', and the heap, hence the state of
    the connection, is as it was. *)
Theorem open_while_open_reports_AlreadyOpen
    (h : heap) (this : loc) (path : string) (options : value) :
  isOpen h this = VBoolean true ->
  path <> "" ->
  is_object options = true ->
  BaseBinding.open (VObject this) (VString path) options h
    = (Normal (Rejected (Error "Already open")), h)
  /\ isOpen h this = VBoolean true.
Proof.
  intros S P O. split; [|exact S].
  rewrite open_by_state, S; [reflexivity| |exact O].
  simpl. destruct path; [congruence|reflexivity].
Qed.

Lemma open_while_open_reports_AlreadyOpen_witness :
  BaseBinding.open (VObject 1%positive) (VString "COM_TEST")
      (VObject 3%positive) opened_heap
    = (Normal (Rejected (Error "Already open")), opened_heap)
  /\ isOpen opened_heap 1%positive = VBoolean true.
Proof.
  apply (open_while_open_reports_AlreadyOpen opened_heap 1%positive
           "COM_TEST" (VObject 3%positive));
    [reflexivity|discriminate|reflexivity].
Defined.

(** [read] asked for more than the Buffer holds: the rejection comes before
    [this] is looked at. *)
Lemma read_over_capacity (h : heap) (this buffer : value) capacity o l :
  is_buffer h buffer = true ->
  field h buffer "length" = VNumber capacity ->
  PrimFloat.ltb capacity (PrimFloat.add o l) = true ->
  BaseBinding.read this buffer (VNumber o) (VNumber l) h
    = (Normal (Rejected BufferTooSmall), h).
Proof.
  intros B F L. run_method. rewrite B. simpl.
  destruct (is_buffer_inv _ _ B) as (b & bytes & props & -> & E).
  rewrite F. unfold js_lt, js_add, to_number. rewrite L. reflexivity.
Qed.

Lemma is_buffer_intro (h : heap) b bytes props :
  h !! b = Some (mkObject (BufferData bytes) props) ->
  is_buffer h (VObject b) = true.
Proof. intros E. simpl. rewrite E. reflexivity. Qed.



(** C9. On a binding whose [isOpen] is false, [read] with a Buffer and
    Numbers [offset] and [length] such that [offset + length > buffer.length]
    ([capacity] being the Number that [buffer.length] reads) returns a
    promise rejected with the error 'buffer is too small', not with 'Port is
    not open': the capacity check comes before the open-state check. *)
Theorem read_capacity_check_precedes_state_check
    (h : heap) (this b : loc) (bytes : list Byte.byte)
    (props : gmap string value) (capacity offset length : float) :
  isOpen h this = VBoolean false ->
  h !! b = Some (mkObject (BufferData bytes) props) ->
  field h (VObject b) "length" = VNumber capacity ->
  PrimFloat.ltb capacity (PrimFloat.add offset length) = true ->
  BaseBinding.read (VObject this) (VObject b) (VNumber offset) (VNumber length) h
    = (Normal (Rejected (Error "buffer is too small")), h)
  /\ Rejected (Error "buffer is too small") <> Rejected NotOpen.
Proof.
  intros _ B F L. split; [|discriminate].
  apply (read_over_capacity h (VObject this) (VObject b) capacity);
    [apply (is_buffer_intro h b bytes props B)|exact F|exact L].
Qed.

Lemma read_capacity_check_precedes_state_check_witness :
  BaseBinding.read (VObject 1%positive) (VObject 2%positive)
      (VNumber 0%float) (VNumber 10%float) closed_heap
    = (Normal (Rejected (Error "buffer is too small")), closed_heap)
  /\ Rejected (Error "buffer is too small") <> Rejected NotOpen.
Proof.
  apply (read_capacity_check_precedes_state_check closed_heap 1%positive
           2%positive four_bytes ∅ 4%float 0%float 10%float);
    reflexivity.
Defined.

(** A [length] of the Buffer's own is the one that [read] compares: with
    100 on a Buffer of four bytes, [read(buffer, 0, 10)] is not too small,
    and [read(buffer, 0, 101)] is. *)
Example own_length_is_the_capacity :
  BaseBinding.read (VObject 1%positive) (VObject 2%positive)
      (VNumber 0%float) (VNumber 10%float) (long_heap (VBoolean true))
    = (Normal (Fulfilled VUndefined), long_heap (VBoolean true))
  /\ BaseBinding.read (VObject 1%positive) (VObject 2%positive)
      (VNumber 0%float) (VNumber 10%float) (long_heap (VBoolean false))
    = (Normal (Rejected NotOpen), long_heap (VBoolean false))
  /\ BaseBinding.read (VObject 1%positive) (VObject 2%positive)
      (VNumber 0%float) (VNumber 101%float) (long_heap (VBoolean false))
    = (Normal (Rejected BufferTooSmall), long_heap (VBoolean false)).
Proof. repeat split. Qed.




(** ** Error channels *)


(** [typeof null] is 'object': [open] and [set] take [null] options for
    well shaped, [update] cannot read their [baudRate] and throws. *)
Example null_options :
  BaseBinding.open (VObject 1%positive) (VString "COM_TEST") VNull closed_heap
    = (Normal (Fulfilled VUndefined), closed_heap)
  /\ BaseBinding.set (VObject 1%positive) VNull closed_heap
    = (Normal (Rejected NotOpen), closed_heap)
  /\ BaseBinding.update (VObject 1%positive) VNull closed_heap
    = (Throw (cannot_read "null" "baudRate"), closed_heap).
Proof. repeat split. Qed.










(** C8 (as the code has it). The static [list()] never throws and never
    rejects: on every heap it returns a promise resolved with [undefined],
    which is no sequence, and the heap is as it was. The base class
    enumerates nothing. *)
Theorem list_resolves_with_undefined (h : heap) :
  BaseBinding.list h = (Normal (Fulfilled VUndefined), h)
  /\ (forall e h', BaseBinding.list h <> (Throw e, h'))
  /\ (forall e h', BaseBinding.list h <> (Normal (Rejected e), h'))
  /\ is_array h VUndefined = false.
Proof.
  unfold BaseBinding.list, mret, M_ret, Promise_resolve.
  repeat split; intros e h' E; discriminate E.
Qed.

(** C8 as stated fails: the promise that [list()] returns is not resolved
    with a sequence, empty or not. *)
Lemma list_resolves_with_no_sequence :
  ~ (exists v h',
       BaseBinding.list ∅ = (Normal (Fulfilled v), h')
       /\ is_array h' v = true).
Proof.
  intros (v & h' & E & A).
  unfold BaseBinding.list, mret, M_ret, Promise_resolve in E.
  injection E as <- <-. discriminate A.
Qed.

(** ** Argument checks of [read] *)






(** ** The arithmetic of the capacity check

    [read] compares [buffer.length] with the sum [offset + length] of two
    binary64 Numbers. *)

Lemma SFcompare_refl f : f <> S754_nan -> SFcompare f f = Some Eq.
Proof.
  destruct f as [s|s| |s m e]; intros N; try congruence; simpl.
  - reflexivity.
  - destruct s; reflexivity.
  - rewrite Z.compare_refl, Pos.compare_cont_refl. destruct s; reflexivity.
Qed.

Lemma SFltb_irrefl f : SFltb f f = false.
Proof.
  unfold SFltb. destruct f as [s|s| |s m e]; try reflexivity;
    rewrite SFcompare_refl by discriminate; reflexivity.
Qed.

Lemma SFltb_add_zero_l s f : SFltb f (SF64add (S754_zero s) f) = false.
Proof.
  destruct f as [s'|s'| |s' m e]; try apply SFltb_irrefl; try reflexivity.
  destruct s, s'; reflexivity.
Qed.

Lemma SFltb_add_zero_r s f : SFltb f (SF64add f (S754_zero s)) = false.
Proof.
  destruct f as [s'|s'| |s' m e]; try apply SFltb_irrefl; try reflexivity.
  destruct s, s'; reflexivity.
Qed.






(** [x < 0 + x] and [x < x + 0] are false for every Number [x]. *)
Lemma not_below_itself_plus_zero (x : float) :
  PrimFloat.ltb x (PrimFloat.add 0 x) = false
  /\ PrimFloat.ltb x (PrimFloat.add x 0) = false.
Proof.
  rewrite !FloatAxioms.ltb_spec, !FloatAxioms.add_spec.
  change (Prim2SF 0) with (S754_zero false).
  split; [apply SFltb_add_zero_l|apply SFltb_add_zero_r].
Qed.



(** ** The methods only read *)

Lemma read_only_ret {A} (a : A) : read_only (mret a).
Proof. intros h. reflexivity. Qed.

Lemma read_only_throw {A} (e : error) : read_only (@throw A e).
Proof. intros h. reflexivity. Qed.

Lemma read_only_get_property v key : read_only (get_property v key).
Proof. intros h. destruct v; reflexivity. Qed.

Lemma read_only_isBuffer v : read_only (Buffer_isBuffer v).
Proof. intros h. reflexivity. Qed.

Lemma read_only_bind {A B} (m : M A) (k : A -> M B) :
  read_only m -> (forall a, read_only (k a)) -> read_only (m ≫= k).
Proof.
  intros Hm Hk h. unfold mbind, M_bind.
  specialize (Hm h). destruct (m h) as [[a|e] h']; simpl in Hm; subst h'.
  - apply Hk.
  - reflexivity.
Qed.

Lemma read_only_if {A} (b : bool) (m1 m2 : M A) :
  read_only m1 -> read_only m2 -> read_only (if b then m1 else m2).
Proof. destruct b; auto. Qed.

Ltac read_only_steps :=
  repeat first
    [ apply read_only_ret
    | apply read_only_throw
    | apply read_only_get_property
    | apply read_only_isBuffer
    | apply read_only_if
    | apply read_only_bind; [|intros ?] ].

Lemma invoke_read_only this c : read_only (invoke this c).
Proof.
  destruct c; simpl;
    unfold BaseBinding.open, BaseBinding.close, BaseBinding.read,
      BaseBinding.write, BaseBinding.update, BaseBinding.set,
      BaseBinding.get, BaseBinding.flush, BaseBinding.drain;
    read_only_steps.
Qed.

(** X1. No instance method ever writes: whatever [this] is, whatever the
    arguments are and however the call ends (a throw, a rejected or a
    resolved promise), the heap after the call is the heap before it. The
    binding, the Buffer and the options are left as they were. *)
Theorem methods_never_write (this : value) (c : call) (h : heap) :
  snd (invoke this c h) = h.
Proof. apply invoke_read_only. Qed.

(** ** Argument checks come first *)

(** X2. A call whose arguments have a shape violation throws the same
    [TypeError] whatever it is called on: an open binding, a closed one, or
    no binding at all. The state of the port is not looked at before the
    arguments are accepted. *)
Theorem ill_shaped_call_ignores_binding
    (h : heap) (this1 this2 : value) (c : call) :
  shape_violation h c = true ->
  invoke this1 c h = invoke this2 c h
  /\ exists m, invoke this1 c h = (Throw (TypeError m), h).
Proof.
  intros V. split; [|apply invoke_ill_shaped, V].
  destruct c; simpl shape_violation in V; try discriminate;
    unfold is_object, is_number in *; run_method.
  - destruct (to_boolean path); simpl in *; [|reflexivity].
    rewrite (negb_true_iff _) in V. rewrite V. reflexivity.
  - destruct (is_buffer h buffer); simpl in *; [|reflexivity].
    destruct (typeof offset =? "number"); simpl in *; [|reflexivity].
    rewrite (negb_true_iff _) in V. rewrite V. reflexivity.
  - rewrite V. reflexivity.
  - destruct (typeof options =? "object") eqn:O; simpl in *; [|reflexivity].
    destruct (is_object_inv _ O) as [->|[l ->]]; [reflexivity|].
    rewrite (negb_true_iff _) in V. simpl in V. rewrite V. reflexivity.
  - rewrite V. reflexivity.
Qed.

Lemma ill_shaped_call_ignores_binding_witness :
  invoke (VObject 1%positive) (CallWrite (VString "AT")) opened_heap
    = invoke VUndefined (CallWrite (VString "AT")) opened_heap
  /\ exists m,
       invoke (VObject 1%positive) (CallWrite (VString "AT")) opened_heap
         = (Throw (TypeError m), opened_heap).
Proof.
  apply (ill_shaped_call_ignores_binding opened_heap (VObject 1%positive)
           VUndefined (CallWrite (VString "AT"))).
  reflexivity.
Defined.

(** ** Every I/O operation is the same state check *)









(** ** Programs over a binding *)








(** ** What the constructor accepts and keeps *)

(** X8. Construction succeeds if and only if [typeof opt] is 'object' and
    [opt.disconnect] is a function; no other field of the configuration is
    looked at. A value that is not of type object is refused with the
    message about the options, a non-null object whose [disconnect] is not
    a function with the message about [options.disconnect]. *)
Theorem construction_succeeds_iff_accepted (h : heap) (opt : value) :
  ((exists this h', BaseBinding.new opt h = (Normal this, h'))
     <-> accepted h opt = true)
  /\ (is_object opt = false ->
      fst (BaseBinding.new opt h)
        = Throw (TypeError (quoted "options" ++ " is not an object")))
  /\ (forall l, opt = VObject l ->
      is_function (field h opt "disconnect") = false ->
      fst (BaseBinding.new opt h)
        = Throw (TypeError (quoted "options.disconnect" ++ " is not a function"))).
Proof.
  split; [|split].
  - split.
    + intros (this & h' & E). destruct (accepted h opt) eqn:A; [reflexivity|].
      destruct (new_refused h opt A) as [m R]. rewrite R in E. discriminate.
    + intros A. rewrite (new_accepted h opt A). eauto.
  - unfold is_object. intros O.
    unfold BaseBinding.new, BaseBinding.constructor, alloc, strict_neq.
    unfold mbind, M_bind, throw. simpl. rewrite O. reflexivity.
  - unfold is_function. intros l -> F.
    unfold BaseBinding.new, BaseBinding.constructor, alloc, strict_neq.
    unfold mbind, M_bind, throw, get_property. simpl.
    rewrite field_alloc, F. reflexivity.
Qed.

(** X9. The constructor keeps nothing: the new binding is an object that
    was not in the heap, it has no property at all (neither [isOpen] nor
    the [disconnect] callback of the configuration), and every object that
    the caller had is as it was. *)
Theorem construction_keeps_nothing (h : heap) (opt : value) :
  accepted h opt = true ->
  exists this h',
    BaseBinding.new opt h = (Normal (VObject this), h')
    /\ h !! this = None
    /\ (forall key, field h' (VObject this) key = VUndefined)
    /\ (forall l, l <> this -> h' !! l = h !! l).
Proof.
  intros A. eexists _, _. split; [apply new_accepted, A|].
  split; [apply fresh_unused|]. split.
  - intros key. unfold field. rewrite lookup_insert_eq.
    unfold own_property. simpl. rewrite lookup_empty. reflexivity.
  - intros l N. apply lookup_insert_ne. congruence.
Qed.

Lemma construction_keeps_nothing_witness :
  exists this h',
    BaseBinding.new (VObject 2%positive) caller_heap = (Normal (VObject this), h')
    /\ caller_heap !! this = None
    /\ (forall key, field h' (VObject this) key = VUndefined)
    /\ (forall l, l <> this -> h' !! l = caller_heap !! l).
Proof.
  apply (construction_keeps_nothing caller_heap (VObject 2%positive)).
  reflexivity.
Defined.

(** ** The bound of the capacity check *)

Lemma read_within_capacity (h : heap) (this b : loc) bytes props o l :
  h !! b = Some (mkObject (BufferData bytes) props) ->
  js_lt (field h (VObject b) "length") (VNumber (PrimFloat.add o l)) = false ->
  BaseBinding.read (VObject this) (VObject b) (VNumber o) (VNumber l) h
    = (Normal (by_isOpen h this), h).
Proof.
  intros B L.
  change (BaseBinding.read (VObject this) (VObject b) (VNumber o) (VNumber l))
    with (invoke (VObject this) (CallRead (VObject b) (VNumber o) (VNumber l))).
  rewrite invoke_well_shaped by (simpl; rewrite B; reflexivity).
  unfold state_failure, over_capacity, by_isOpen.
  change (js_add (VNumber o) (VNumber l)) with (VNumber (PrimFloat.add o l)).
  rewrite L. destruct (to_boolean (isOpen h this)); reflexivity.
Qed.

(** X10. The capacity check is strict: with [capacity] the Number that
    [buffer.length] reads, reading the whole capacity,
    [read(buffer, 0, buffer.length)], and reading nothing at its end,
    [read(buffer, buffer.length, 0)], are never reported as 'buffer is too
    small', whatever the size of the Buffer (an empty one included); the
    call resolves on an open binding and rejects with 'Port is not open'
    on a closed one. *)
Theorem read_exact_fit_is_not_too_small
    (h : heap) (this b : loc) (bytes : list Byte.byte)
    (props : gmap string value) (capacity : float) :
  h !! b = Some (mkObject (BufferData bytes) props) ->
  field h (VObject b) "length" = VNumber capacity ->
  BaseBinding.read (VObject this) (VObject b)
      (VNumber 0%float) (VNumber capacity) h
    = (Normal (by_isOpen h this), h)
  /\ BaseBinding.read (VObject this) (VObject b)
      (VNumber capacity) (VNumber 0%float) h
    = (Normal (by_isOpen h this), h).
Proof.
  intros B F.
  destruct (not_below_itself_plus_zero capacity) as [L R].
  split; apply (read_within_capacity h this b bytes props); try exact B;
    rewrite F; unfold js_lt, to_number; assumption.
Qed.

Lemma read_exact_fit_is_not_too_small_witness :
  BaseBinding.read (VObject 1%positive) (VObject 2%positive)
      (VNumber 0%float) (VNumber 4%float) opened_heap
    = (Normal (Fulfilled VUndefined), opened_heap).
Proof.
  apply (read_exact_fit_is_not_too_small opened_heap 1%positive 2%positive
           four_bytes ∅ 4%float);
    reflexivity.
Defined.




(** ** The path of [open] *)

(** X13. [open] tests its path for truthiness and nothing else. It throws
    the [TypeError] about the path exactly when the path is falsy (the empty
    string, [undefined], [null], [0], [NaN], [false]), whatever the options
    and the binding are; every truthy path is accepted, a string or not, and
    with options of type object the answer then depends on [isOpen] alone. *)
Theorem open_tests_path_for_truthiness
    (h : heap) (this : loc) (path options : value) :
  (forall t : value,
     BaseBinding.open t path options h
       = (Throw (TypeError (quoted "path" ++ " is not a valid port")), h)
     <-> to_boolean path = false)
  /\ (to_boolean path = true -> is_object options = true ->
      BaseBinding.open (VObject this) path options h
        = (Normal (if to_boolean (isOpen h this) then Rejected AlreadyOpen
                   else Fulfilled VUndefined), h)).
Proof.
  split; [|apply open_by_state].
  intros t. split.
  - destruct (to_boolean path) eqn:P; [|reflexivity].
    run_method. rewrite P. simpl.
    destruct (typeof options =? "object"); simpl.
    + destruct t; simpl;
        try (intros E; discriminate E);
        destruct (to_boolean (field h _ "isOpen")); intros E; discriminate E.
    + intros E. discriminate E.
  - intros P. run_method. rewrite P. reflexivity.
Qed.

(** ** The two sides of the state check *)

(** X14. [open] and [close] are complementary: on every binding, whatever
    [isOpen] holds, exactly one of [open] (with a truthy path and options of
    type object) and [close()] returns a resolved promise, and the other a
    rejected one. *)
Theorem open_and_close_are_complementary
    (h : heap) (this : loc) (path options : value) :
  to_boolean path = true ->
  is_object options = true ->
  (BaseBinding.open (VObject this) path options h
     = (Normal (Fulfilled VUndefined), h)
   /\ BaseBinding.close (VObject this) h = (Normal (Rejected NotOpen), h))
  \/ (BaseBinding.open (VObject this) path options h
        = (Normal (Rejected AlreadyOpen), h)
      /\ BaseBinding.close (VObject this) h
        = (Normal (Fulfilled VUndefined), h)).
Proof.
  intros P O. rewrite (open_by_state h this path options P O), close_by_state.
  destruct (to_boolean (isOpen h this)); [right|left]; split; reflexivity.
Qed.

Lemma open_and_close_are_complementary_witness :
  (BaseBinding.open (VObject 1%positive) (VString "COM_TEST")
       (VObject 3%positive) closed_heap
     = (Normal (Fulfilled VUndefined), closed_heap)
   /\ BaseBinding.close (VObject 1%positive) closed_heap
     = (Normal (Rejected NotOpen), closed_heap))
  \/ (BaseBinding.open (VObject 1%positive) (VString "COM_TEST")
        (VObject 3%positive) closed_heap
        = (Normal (Rejected AlreadyOpen), closed_heap)
      /\ BaseBinding.close (VObject 1%positive) closed_heap
        = (Normal (Fulfilled VUndefined), closed_heap)).
Proof.
  apply (open_and_close_are_complementary closed_heap 1%positive
           (VString "COM_TEST") (VObject 3%positive));
    reflexivity.
Defined.

(** ** The data is not looked at *)


